(** * Structured-output schemas of the expense assistant

    A shallow embedding of [src/expenses_agent/assistant/schemas.py]
    (and of the two enumerations it imports from
    [src/expenses_agent/models/models.py]), followed by the properties of
    the validation layer.

    Conventions of the embedding.
    - The body of a function or method of the source is a function here.
      A body that can raise returns a [result]; one that cannot returns its
      value.
    - A Python [str] that the module only compares (dictionary keys, roles,
      enumeration values, exception messages) is a [string]; a [str] that
      the module trims is the list of its code points, so that [isspace]
      is the full table of [str.isspace].
    - A decorator is a function applied to the function it decorates, as
      Python applies it while the class body runs: the body of a class is a
      computation that either yields the class or raises.  What the
      framework would then do with a class that exists (the validation of
      the keyword arguments of a construction) is left as a parameter,
      [instantiate], of the construction attempts.
    - For each model class, the record [input] holds the keyword arguments
      of a call of the class and the record [t] lists the fields with the
      types the class body declares for them.
    - Methods of a mutable object are computations in a state monad over
      the object. *)

From Stdlib Require Import ZArith QArith Qpower Lia Lqa List String Ascii Bool.
From stdpp Require Import base option list strings gmap.

Local Open Scope string_scope.
Local Open Scope Z_scope.

(** ** Python primitives *)

Module Py.

(** [str.isspace] on one code point. *)
Definition isspace (c : N) : bool :=
  (((9 <=? c) && (c <=? 13)) || ((28 <=? c) && (c <=? 32))
   || (c =? 133) || (c =? 160) || (c =? 5760)
   || ((8192 <=? c) && (c <=? 8202))
   || (c =? 8232) || (c =? 8233) || (c =? 8239) || (c =? 8287)
   || (c =? 12288))%N.

Fixpoint lstrip (s : list N) : list N :=
  match s with
  | [] => []
  | c :: s' => if isspace c then lstrip s' else s
  end.

Fixpoint rstrip (s : list N) : list N :=
  match s with
  | [] => []
  | c :: s' =>
      match rstrip s' with
      | [] => if isspace c then [] else [c]
      | r => c :: r
      end
  end.

(** [s.strip()] *)
Definition strip (s : list N) : list N := rstrip (lstrip s).

(** Truth value of a list, and so of a [str]: false exactly when empty. *)
Definition list_truthy {A} (l : list A) : bool :=
  match l with [] => false | _ :: _ => true end.

(** Every character of the text is white space. *)
Fixpoint all_space (s : list N) : bool :=
  match s with
  | [] => true
  | c :: s' => isspace c && all_space s'
  end.

(** The text begins, or ends, with a white-space character. *)
Definition starts_with_space (s : list N) : bool :=
  match s with
  | [] => false
  | c :: _ => isspace c
  end.

Fixpoint ends_with_space (s : list N) : bool :=
  match s with
  | [] => false
  | [c] => isspace c
  | _ :: s' => ends_with_space s'
  end.

(** The code points of a text written with ASCII characters. *)
Definition text (s : string) : list N :=
  List.map N_of_ascii (list_ascii_of_string s).

(** The slice [l[start:]] for an integer [start]: a negative [start]
    counts from the end, and both ends are clamped to the list. *)
Definition slice_from {A} (start : Z) (l : list A) : list A :=
  let len := Z.of_nat (length l) in
  let lo := if start <? 0 then Z.max 0 (len + start) else Z.min start len in
  drop (Z.to_nat lo) l.

(** A word between double quotes, as the messages of the module print
    field names. *)
Definition quoted (s : string) : string :=
  String "034"%char (s ++ String "034"%char EmptyString).

(** The last [n] elements (all of them when there are fewer). *)
Definition lastn {A} (n : nat) (l : list A) : list A :=
  drop (length l - n)%nat l.

End Py.

(** ** Outcomes *)

Inductive error_kind : Type :=
  | ValueError (msg : string)      (* raised by a validator of the module *)
  | InvalidOperation               (* raised by [decimal] on comparing a NaN *)
  | PydanticUserError (code : string). (* raised by a decorator of the framework *)

(** An error names where it was raised: the field a validator works for,
    or the function a decorator was applied to. *)
Record error : Type := Err { err_loc : string; err_kind : error_kind }.

Inductive result (A : Type) : Type :=
  | Ok (a : A)
  | Failed (e : error).
Arguments Ok {A} a.
Arguments Failed {A} e.

Definition bind {A B} (m : result A) (k : A -> result B) : result B :=
  match m with
  | Ok a => k a
  | Failed e => Failed e
  end.

Notation "'let*' x ':=' m 'in' k" := (bind m (fun x => k))
  (at level 10, x name, m at level 100, k at level 200).

Definition succeeds {A} (r : result A) : bool :=
  match r with Ok _ => true | Failed _ => false end.

Definition fails {A} (r : result A) : Prop := exists e, r = Failed e.

(** ** Enumerations *)

Inductive ActionType : Type :=
  | CREATE_EXPENSE | LIST_EXPENSES | UPDATE_EXPENSE | DELETE_EXPENSE
  | CREATE_CATEGORY | LIST_CATEGORIES | UPDATE_CATEGORY | DELETE_CATEGORY
  | CLASSIFY_EXPENSE | GET_SUMMARY | HELP | UNCLEAR.

Definition ActionType_value (a : ActionType) : string :=
  match a with
  | CREATE_EXPENSE => "create_expense"
  | LIST_EXPENSES => "list_expenses"
  | UPDATE_EXPENSE => "update_expense"
  | DELETE_EXPENSE => "delete_expense"
  | CREATE_CATEGORY => "create_category"
  | LIST_CATEGORIES => "list_categories"
  | UPDATE_CATEGORY => "update_category"
  | DELETE_CATEGORY => "delete_category"
  | CLASSIFY_EXPENSE => "classify_expense"
  | GET_SUMMARY => "get_summary"
  | HELP => "help"
  | UNCLEAR => "unclear"
  end.

Inductive ConfidenceLevel : Type := HIGH | MEDIUM | LOW.

Definition ConfidenceLevel_value (c : ConfidenceLevel) : string :=
  match c with HIGH => "high" | MEDIUM => "medium" | LOW => "low" end.

Inductive PaymentMethod : Type :=
  | CREDIT_CARD | DEBIT_CARD | CASH | BANK_TRANSFER | MOBILE_PAYMENT
  | CHECK | OTHER.

Definition PaymentMethod_value (p : PaymentMethod) : string :=
  match p with
  | CREDIT_CARD => "Credit Card"
  | DEBIT_CARD => "Debit Card"
  | CASH => "Cash"
  | BANK_TRANSFER => "Bank Transfer"
  | MOBILE_PAYMENT => "Mobile Payment"
  | CHECK => "Check"
  | OTHER => "Other"
  end.

Inductive Currency : Type :=
  | USD | EUR | GBP | JPY | AUD | CAD | CHF | CNY | SEK | NZD.

Definition Currency_value (c : Currency) : string :=
  match c with
  | USD => "USD" | EUR => "EUR" | GBP => "GBP" | JPY => "JPY" | AUD => "AUD"
  | CAD => "CAD" | CHF => "CHF" | CNY => "CNY" | SEK => "SEK" | NZD => "NZD"
  end.

(** Look a string value up among the members of an enumeration. *)
Definition enum_of_string {E} (members : list E) (value : E -> string)
    (s : string) : option E :=
  List.find (fun e => String.eqb (value e) s) members.

Definition ActionType_of_string : string -> option ActionType :=
  enum_of_string
    [CREATE_EXPENSE; LIST_EXPENSES; UPDATE_EXPENSE; DELETE_EXPENSE;
     CREATE_CATEGORY; LIST_CATEGORIES; UPDATE_CATEGORY; DELETE_CATEGORY;
     CLASSIFY_EXPENSE; GET_SUMMARY; HELP; UNCLEAR]
    ActionType_value.

Definition ConfidenceLevel_of_string : string -> option ConfidenceLevel :=
  enum_of_string [HIGH; MEDIUM; LOW] ConfidenceLevel_value.

Definition PaymentMethod_of_string : string -> option PaymentMethod :=
  enum_of_string
    [CREDIT_CARD; DEBIT_CARD; CASH; BANK_TRANSFER; MOBILE_PAYMENT; CHECK; OTHER]
    PaymentMethod_value.

Definition Currency_of_string : string -> option Currency :=
  enum_of_string [USD; EUR; GBP; JPY; AUD; CAD; CHF; CNY; SEK; NZD]
    Currency_value.

(** ** Values carried by the fields *)

(** A [Decimal]: a finite one has a sign, a coefficient and an exponent and
    stands for [(-1)^sign * coefficient * 10^exponent]; the others are the
    two infinities and NaN. *)
Inductive Decimal : Type :=
  | DFinite (sign : bool) (coeff : N) (exp : Z)
  | DInfinity (negative : bool)
  | DNaN.

(** [d <= 0].  On a NaN the comparison raises [InvalidOperation]: [None]. *)
Definition Decimal_le_zero (d : Decimal) : option bool :=
  match d with
  | DFinite sign coeff _ => Some ((coeff =? 0)%N || sign)
  | DInfinity negative => Some negative
  | DNaN => None
  end.

(** The number a finite decimal stands for. *)
Definition finite_value (sign : bool) (coeff : N) (exp : Z) : Q :=
  ((if sign then -1 else 1) * inject_Z (Z.of_N coeff) * Qpower (10 # 1) exp)%Q.

(** A [datetime]: the wall-clock reading in microseconds and, when the value
    is timezone-aware, the offset of its [tzinfo] from UTC in seconds. *)
Record datetime : Type := DateTime { wall_clock : Z; tzinfo : option Z }.

Definition utc : Z := 0.

(** A [float].  The module only ever compares floats with the constants 0
    and 1, and such comparisons are exact, so a finite float is represented
    by the number it stands for; NaN and the two infinities are kept
    apart. *)
Inductive float : Type :=
  | FNan
  | FInf (negative : bool)
  | FNum (q : Q).

(** [x <= y] on floats: false as soon as one side is NaN. *)
Definition float_le (x y : float) : bool :=
  match x, y with
  | FNan, _ | _, FNan => false
  | FInf true, _ => true
  | _, FInf false => true
  | FInf false, _ => false
  | _, FInf true => false
  | FNum p, FNum q => Qle_bool p q
  end.

(** A Python value as it can appear inside the raw mappings the models
    receive. *)
Inductive pyscalar : Type :=
  | PNone
  | PBool (b : bool)
  | PInt (n : Z)
  | PFloat (x : float)
  | PStr (s : string).

Inductive pyvalue : Type :=
  | PScalar (v : pyscalar)
  | PList (l : list pyscalar)
  | PDict (d : gmap string pyscalar).

(** [isinstance(v, (int, float))]; [bool] is a subclass of [int]. *)
Definition is_int_or_float (v : pyscalar) : bool :=
  match v with
  | PBool _ | PInt _ | PFloat _ => true
  | PNone | PStr _ => false
  end.

(** [0 <= v <= 1] for a value that passed [is_int_or_float]. *)
Definition between_0_and_1 (v : pyscalar) : bool :=
  match v with
  | PBool _ => true
  | PInt n => (0 <=? n) && (n <=? 1)
  | PFloat x => float_le (FNum 0) x && float_le x (FNum 1)
  | PNone | PStr _ => false
  end.

(** The truth value of a Python value, as [if v:] and [not v] take it. *)
Definition truthy (v : pyvalue) : bool :=
  match v with
  | PScalar PNone => false
  | PScalar (PBool b) => b
  | PScalar (PInt n) => negb (n =? 0)
  | PScalar (PFloat (FNum q)) => negb (Qeq_bool q 0)
  | PScalar (PFloat _) => true
  | PScalar (PStr s) => negb (String.eqb s "")
  | PList l => Py.list_truthy l
  | PDict d => negb (bool_decide (d = ∅))
  end.

(** ** Decorators of the framework *)

(** A function of the source as a decorator sees it: its name, the names
    of its parameters and its body. *)
Record pyfunction (A B : Type) : Type :=
  Def { def_name : string; parameters : list string; body : A -> B }.
Arguments Def {A B} def_name parameters body.
Arguments def_name {A B} p.
Arguments parameters {A B} p.
Arguments body {A B} p.

(** What a class keeps of a validator once a decorator has accepted it. *)
Record validator (A B : Type) : Type :=
  Validator { bound_as_classmethod : bool; run : A -> B }.
Arguments Validator {A B} bound_as_classmethod run.
Arguments bound_as_classmethod {A B} v.
Arguments run {A B} v.

Definition first_parameter_is {A B} (name : string) (f : pyfunction A B) : bool :=
  match parameters f with
  | p :: _ => String.eqb p name
  | [] => false
  end.

(** [@field_validator(field)] applied to [f]: a function whose first
    parameter is called [self] is refused with a [PydanticUserError]; any
    other function is made a classmethod for the field. *)
Definition field_validator {A B} (field : string) (f : pyfunction A B)
    : result (validator A B) :=
  if first_parameter_is "self" f
  then Failed (Err (def_name f) (PydanticUserError "validator-instance-method"))
  else Ok (Validator true (body f)).

(** [@model_validator(mode="before")] applied to [f]: nothing is refused
    here; the function is made a classmethod only when its first parameter
    is called [cls]. *)
Definition model_validator_before {A B} (f : pyfunction A B)
    : result (validator A B) :=
  Ok (Validator (first_parameter_is "cls" f) (body f)).

(** ** ExpenseData *)

Module ExpenseData.

(** The keyword arguments of a construction attempt; [None] is a field
    left out (or passed as [None]).  Enumeration fields are given by their
    string value. *)
Record input : Type := Input {
  in_amount : option Decimal;
  in_currency : option string;
  in_description : option (list N);
  in_category_name : option (list N);
  in_payment_method : option string;
  in_expense_date : option datetime;
  in_notes : option (list N);
  in_user_name : option (list N);
  in_confidence : option string
}.

Record t : Type := Make {
  amount : option Decimal;
  currency : option Currency;
  description : option (list N);
  category_name : option (list N);
  payment_method : option PaymentMethod;
  expense_date : option datetime;
  notes : option (list N);
  user_name : option (list N);
  confidence : ConfidenceLevel
}.

Definition validate_amount (v : option Decimal) : result (option Decimal) :=
  match v with
  | Some d =>
      match Decimal_le_zero d with
      | None => Failed (Err "amount" InvalidOperation)
      | Some true =>
          Failed (Err "amount" (ValueError "Amount must be greater than 0"))
      | Some false => Ok v
      end
  | None => Ok v
  end.

Definition validate_description (v : option (list N)) : option (list N) :=
  match v with
  | Some s =>
      let s := Py.strip s in
      if negb (Py.list_truthy s) then None else Some s
  | None => v
  end.

Definition validate_expense_date (v : option datetime) : option datetime :=
  match v with
  | Some d =>
      match tzinfo d with
      | None => Some (DateTime (wall_clock d) (Some utc))
      | Some _ => v
      end
  | None => v
  end.

(** The validators a class keeps, one per decorated function. *)
Record cls : Type := Class {
  amount_validator : validator (option Decimal) (result (option Decimal));
  description_validator : validator (option (list N)) (option (list N));
  expense_date_validator : validator (option datetime) (option datetime)
}.

(** The body of the class: the decorated functions, in the order of the
    source, each with the parameters it is written with. *)
Definition class_body : result cls :=
  let* amount_validator :=
    field_validator "amount"
      (Def "validate_amount" ["self"; "v"] validate_amount) in
  let* description_validator :=
    field_validator "description"
      (Def "validate_description" ["self"; "v"] validate_description) in
  let* expense_date_validator :=
    field_validator "expense_date"
      (Def "validate_expense_date" ["self"; "v"] validate_expense_date) in
  Ok (Class amount_validator description_validator expense_date_validator).

(** *** Vocabulary of the properties *)

(** The decimal is at most 0, or is above 0, as a number of the extended
    line; a NaN is neither. *)
Definition nonpositive (d : Decimal) : Prop :=
  match d with
  | DFinite sign coeff exp => (finite_value sign coeff exp <= 0)%Q
  | DInfinity negative => negative = true
  | DNaN => False
  end.

Definition positive (d : Decimal) : Prop :=
  match d with
  | DFinite sign coeff exp => (0 < finite_value sign coeff exp)%Q
  | DInfinity negative => negative = false
  | DNaN => False
  end.

Definition amount_error : error :=
  Err "amount" (ValueError "Amount must be greater than 0").

End ExpenseData.

(** ** ClassificationResult *)

Module ClassificationResult.

Record input : Type := Input {
  in_category_name : option (list N);
  in_category_id : option Z;
  in_confidence : option string;
  in_confidence_score : option float;
  in_reasoning : option (list N);
  in_alternative_categories : option (list pyvalue)
}.

Record t : Type := Make {
  category_name : option (list N);
  category_id : option Z;
  confidence : ConfidenceLevel;
  confidence_score : float;
  reasoning : option (list N);
  alternative_categories : list pyvalue
}.

(** The body of the loop of [validate_alternatives], for one entry. *)
Definition check_alternative (alt : pyvalue) : result unit :=
  match alt with
  | PDict d =>
      match d !! "name", d !! "score" with
      | Some _, Some score =>
          if negb (is_int_or_float score) || negb (between_0_and_1 score)
          then Failed (Err "alternative_categories"
                 (ValueError "Alternative category scores must be between 0 and 1"))
          else Ok tt
      | _, _ =>
          Failed (Err "alternative_categories"
            (ValueError ("Alternative categories must have " ++ Py.quoted "name"
               ++ " and " ++ Py.quoted "score" ++ " keys")))
      end
  | _ =>
      Failed (Err "alternative_categories"
        (ValueError "Alternative categories must be dictionaries"))
  end.

Fixpoint check_alternatives (v : list pyvalue) : result unit :=
  match v with
  | [] => Ok tt
  | alt :: rest =>
      let* _ := check_alternative alt in check_alternatives rest
  end.

Definition validate_alternatives (v : list pyvalue) : result (list pyvalue) :=
  let* _ := check_alternatives v in Ok v.

Record cls : Type := Class {
  alternatives_validator : validator (list pyvalue) (result (list pyvalue))
}.

Definition class_body : result cls :=
  let* alternatives_validator :=
    field_validator "alternative_categories"
      (Def "validate_alternatives" ["self"; "v"] validate_alternatives) in
  Ok (Class alternatives_validator).

(** *** Vocabulary of the properties *)

(** The number a Python value stands for, when it is a finite number. *)
Definition number (v : pyscalar) : option Q :=
  match v with
  | PBool b => Some (if b then 1 else 0)%Q
  | PInt n => Some (inject_Z n)
  | PFloat (FNum q) => Some q
  | PFloat _ | PNone | PStr _ => None
  end.

(** The score of an alternative is numeric and lies in [0, 1]. *)
Definition score_ok (v : pyscalar) : Prop :=
  exists q, number v = Some q /\ (0 <= q /\ q <= 1)%Q.

(** An entry of the alternatives list that is not acceptable: not a
    mapping, or without "name", or without "score", or with a score that
    is not a number of [0, 1]. *)
Inductive malformed : pyvalue -> Prop :=
  | not_a_mapping_scalar v : malformed (PScalar v)
  | not_a_mapping_list l : malformed (PList l)
  | lacks_name d : d !! "name" = None -> malformed (PDict d)
  | lacks_score d : d !! "score" = None -> malformed (PDict d)
  | bad_score d v : d !! "score" = Some v -> ~ score_ok v -> malformed (PDict d).

(** Two alternatives, the second without its score. *)
Definition second_lacks_score : list pyvalue :=
  [PDict (<["score" := PFloat (FNum (1 # 4))]> (<["name" := PStr "Food"]> ∅));
   PDict (<["name" := PStr "Travel"]> ∅)].

End ClassificationResult.

(** ** AssistantResponse *)

Module AssistantResponse.

(** The keyword arguments of a construction attempt; [None] is a key
    left out. *)
Record input : Type := Input {
  in_action : option string;
  in_success : option bool;
  in_message : option (list N);
  in_expense_data : option ExpenseData.input;
  in_classification_result : option ClassificationResult.input;
  in_confidence : option string;
  in_requires_clarification : option bool;
  in_clarification_questions : option (list (list N));
  in_data : option (gmap string pyvalue)
}.

Record t : Type := Make {
  action : ActionType;
  success : bool;
  message : list N;
  expense_data : option ExpenseData.t;
  classification_result : option ClassificationResult.t;
  confidence : ConfidenceLevel;
  requires_clarification : bool;
  clarification_questions : list (list N);
  data : option (gmap string pyvalue)
}.

Definition validate_message (v : list N) : result (list N) :=
  let v := Py.strip v in
  if negb (Py.list_truthy v)
  then Failed (Err "message" (ValueError "Message cannot be empty"))
  else Ok v.

Definition validate_clarification_questions (v : list (list N))
    : list (list N) :=
  List.map Py.strip (List.filter (fun q => Py.list_truthy (Py.strip q)) v).

(** The body of the model validator.  [values] is the raw mapping it is
    handed, with values of any kind: the two tests are tests of truth
    value.  The assignment changes the caller's mapping; the mapping
    returned is that same mapping. *)
Definition validate_clarification_consistency (values : gmap string pyvalue)
    : result (gmap string pyvalue) :=
  let requires_clarification :=
    default (PScalar (PBool false)) (values !! "requires_clarification") in
  let clarification_questions :=
    default (PList []) (values !! "clarification_questions") in
  if truthy requires_clarification && negb (truthy clarification_questions)
  then Failed (Err ""
         (ValueError "If clarification is required, questions must be provided"))
  else
    if negb (truthy requires_clarification) && truthy clarification_questions
    then Ok (<["requires_clarification" := PScalar (PBool true)]> values)
    else Ok values.

Record cls : Type := Class {
  message_validator : validator (list N) (result (list N));
  questions_validator : validator (list (list N)) (list (list N));
  consistency_validator :
    validator (gmap string pyvalue) (result (gmap string pyvalue))
}.

Definition class_body : result cls :=
  let* message_validator :=
    field_validator "message"
      (Def "validate_message" ["self"; "v"] validate_message) in
  let* questions_validator :=
    field_validator "clarification_questions"
      (Def "validate_clarification_questions" ["self"; "v"]
         validate_clarification_questions) in
  let* consistency_validator :=
    model_validator_before
      (Def "validate_clarification_consistency" ["self"; "values"]
         validate_clarification_consistency) in
  Ok (Class message_validator questions_validator consistency_validator).

(** *** Vocabulary of the properties *)

(** The keyword arguments that give only the required fields and the two
    clarification fields. *)
Definition minimal (action : string) (success : bool) (message : string)
    (requires_clarification : bool) (questions : list string) : input :=
  Input (Some action) (Some success) (Some (Py.text message)) None None None
    (Some requires_clarification) (Some (List.map Py.text questions)) None.

(** The flag and the questions of a raw mapping, as the model validator
    reads them. *)
Definition flag_of (values : gmap string pyvalue) : pyvalue :=
  default (PScalar (PBool false)) (values !! "requires_clarification").

Definition questions_of (values : gmap string pyvalue) : pyvalue :=
  default (PList []) (values !! "clarification_questions").

End AssistantResponse.

(** ** ConversationContext *)

(** Computations over a mutable object: the object before, the value
    returned and the object after. *)
Definition State (S A : Type) : Type := S -> A * S.

Definition ret {S A} (a : A) : State S A := fun s => (a, s).

Definition seq {S A B} (m : State S A) (k : A -> State S B) : State S B :=
  fun s => let (a, s') := m s in k a s'.

Definition get {S} : State S S := fun s => (s, s).

Definition put {S} (s : S) : State S unit := fun _ => (tt, s).

Notation "'do' x '<-' m ';' k" := (seq m (fun x => k))
  (at level 10, x name, m at level 100, k at level 200).

Definition exec {S A} (m : State S A) (s : S) : S := snd (m s).

Definition eval {S A} (m : State S A) (s : S) : A := fst (m s).

Module ConversationContext.

Record input : Type := Input {
  in_user_name : option string;
  in_last_expense_data : option ExpenseData.input;
  in_last_action : option string;
  in_conversation_history : option (list (gmap string string));
  in_user_preferences : option (gmap string pyvalue)
}.

Record t : Type := Make {
  user_name : option string;
  last_expense_data : option ExpenseData.t;
  last_action : option ActionType;
  conversation_history : list (gmap string string);
  user_preferences : gmap string pyvalue
}.

(** [self.conversation_history = h] *)
Definition set_conversation_history (h : list (gmap string string)) (self : t) : t :=
  Make (user_name self) (last_expense_data self) (last_action self) h
    (user_preferences self).

(** The body of the loop of [validate_conversation_history].  An entry of
    the declared type [Dict[str, str]] is a dictionary, so the
    [isinstance] test of the source always passes. *)
Definition check_entry (entry : gmap string string) : result unit :=
  match entry !! "role", entry !! "content" with
  | Some role, Some _ =>
      if bool_decide (role ∈ ["user"; "assistant"])
      then Ok tt
      else Failed (Err "conversation_history"
             (ValueError ("Role must be either " ++ Py.quoted "user" ++ " or "
                ++ Py.quoted "assistant")))
  | _, _ =>
      Failed (Err "conversation_history"
        (ValueError ("Conversation history entries must have "
           ++ Py.quoted "role" ++ " and " ++ Py.quoted "content")))
  end.

Fixpoint check_entries (v : list (gmap string string)) : result unit :=
  match v with
  | [] => Ok tt
  | entry :: rest => let* _ := check_entry entry in check_entries rest
  end.

Definition validate_conversation_history (v : list (gmap string string))
    : result (list (gmap string string)) :=
  let* _ := check_entries v in Ok v.

Record cls : Type := Class {
  history_validator :
    validator (list (gmap string string)) (result (list (gmap string string)))
}.

(** The body of the class: the decorated validator comes before the two
    methods, which are plain functions. *)
Definition class_body : result cls :=
  let* history_validator :=
    field_validator "conversation_history"
      (Def "validate_conversation_history" ["self"; "v"]
         validate_conversation_history) in
  Ok (Class history_validator).

(** The dictionary [{"role": role, "content": content}]. *)
Definition entry (role content : string) : gmap string string :=
  <["content" := content]> (<["role" := role]> ∅).

Definition add_message (role content : string) : State t unit :=
  do self <- get;
  do _ <- put (set_conversation_history
                 (conversation_history self ++ [entry role content]) self);
  do self <- get;
  if (10 <? length (conversation_history self))%nat
  then put (set_conversation_history
              (Py.slice_from (-10) (conversation_history self)) self)
  else ret tt.

Definition get_recent_messages (count : Z) : State t (list (gmap string string)) :=
  do self <- get;
  ret (if Py.list_truthy (conversation_history self)
       then Py.slice_from (- count) (conversation_history self)
       else []).

(** A run of [add_message] calls, one per (role, content) pair. *)
Fixpoint add_messages (msgs : list (string * string)) : State t unit :=
  match msgs with
  | [] => ret tt
  | (role, content) :: rest =>
      do _ <- add_message role content; add_messages rest
  end.

(** The context built with no argument. *)
Definition empty : t := Make None None None [] ∅.

(** *** Vocabulary of the properties *)

(** The dictionaries a run of [add_message] calls appends, in order. *)
Definition entries (msgs : list (string * string)) : list (gmap string string) :=
  List.map (fun m => entry (fst m) (snd m)) msgs.

(** Twelve messages, numbered by their content. *)
Definition twelve : list (string * string) :=
  [("user", "1"); ("assistant", "2"); ("user", "3"); ("assistant", "4");
   ("user", "5"); ("assistant", "6"); ("user", "7"); ("assistant", "8");
   ("user", "9"); ("assistant", "10"); ("user", "11"); ("assistant", "12")].

(** A context whose history holds three entries. *)
Definition three : t :=
  Make None None None
    [entry "user" "a"; entry "assistant" "b"; entry "user" "c"] ∅.

End ConversationContext.

(** ** ErrorResponse *)

Module ErrorResponse.

Record input : Type := Input {
  in_error_type : option (list N);
  in_error_message : option (list N);
  in_error_code : option (list N);
  in_suggestions : option (list (list N));
  in_retry_possible : option bool
}.

Record t : Type := Make {
  error_type : list N;
  error_message : list N;
  error_code : option (list N);
  suggestions : list (list N);
  retry_possible : bool
}.

Definition validate_error_message (v : list N) : result (list N) :=
  let v := Py.strip v in
  if negb (Py.list_truthy v)
  then Failed (Err "error_message" (ValueError "Error message cannot be empty"))
  else Ok v.

Record cls : Type := Class {
  error_message_validator : validator (list N) (result (list N))
}.

Definition class_body : result cls :=
  let* error_message_validator :=
    field_validator "error_message"
      (Def "validate_error_message" ["self"; "v"] validate_error_message) in
  Ok (Class error_message_validator).

End ErrorResponse.

(** ** The module as it is executed *)

Module Schemas.

(** The classes the module defines, once it has run to its end. *)
Record namespace : Type := Namespace {
  ExpenseData_class : ExpenseData.cls;
  ClassificationResult_class : ClassificationResult.cls;
  AssistantResponse_class : AssistantResponse.cls;
  ConversationContext_class : ConversationContext.cls;
  ErrorResponse_class : ErrorResponse.cls
}.

(** Running the module (importing it): the class statements in the order
    of the source; the first one that raises ends the run. *)
Definition exec_module : result namespace :=
  let* ExpenseData_class := ExpenseData.class_body in
  let* ClassificationResult_class := ClassificationResult.class_body in
  let* AssistantResponse_class := AssistantResponse.class_body in
  let* ConversationContext_class := ConversationContext.class_body in
  let* ErrorResponse_class := ErrorResponse.class_body in
  Ok (Namespace ExpenseData_class ClassificationResult_class
        AssistantResponse_class ConversationContext_class ErrorResponse_class).

(** A construction attempt, a call of the class with keyword arguments:
    the module is run, the class is taken from it and handed, with the
    keyword arguments, to the framework's validation, [instantiate]. *)
Definition construct {C I T} (class : namespace -> C)
    (instantiate : C -> I -> result T) (kwargs : I) : result T :=
  let* module := exec_module in instantiate (class module) kwargs.

Definition new_ExpenseData {T}
    (instantiate : ExpenseData.cls -> ExpenseData.input -> result T) :=
  construct ExpenseData_class instantiate.

Definition new_ClassificationResult {T}
    (instantiate : ClassificationResult.cls -> ClassificationResult.input
                   -> result T) :=
  construct ClassificationResult_class instantiate.

Definition new_AssistantResponse {T}
    (instantiate : AssistantResponse.cls -> AssistantResponse.input -> result T) :=
  construct AssistantResponse_class instantiate.


Definition new_ErrorResponse {T}
    (instantiate : ErrorResponse.cls -> ErrorResponse.input -> result T) :=
  construct ErrorResponse_class instantiate.

(** The error every run of the module ends with. *)
Definition import_error : error :=
  Err "validate_amount" (PydanticUserError "validator-instance-method").

End Schemas.

(** * Properties *)

Local Open Scope list_scope.

(** ** Generic facts about [result] and the Python primitives *)

Lemma fails_Failed {A} (e : error) : fails (@Failed A e).
Proof. by exists e. Qed.

Lemma succeeds_fails {A} (r : result A) : succeeds r = false <-> fails r.
Proof.
  destruct r as [a|e]; simpl; split; try discriminate; eauto using fails_Failed.
  intros [e H]. discriminate.
Qed.

Lemma bind_Ok_inv {A B} (m : result A) (k : A -> result B) (b : B) :
  bind m k = Ok b -> exists a, m = Ok a /\ k a = Ok b.
Proof. destruct m as [a|e]; simpl; [eauto | discriminate]. Qed.

(** Peel one [bind] off a hypothesis [bind m k = Ok b]. *)
Ltac bind_inv H :=
  let a := fresh "a" in
  let Hm := fresh "Hm" in
  apply bind_Ok_inv in H; destruct H as (a & Hm & H); simpl in H.

(** No construction attempt gets past the run of the module. *)
Lemma construct_raises {C I T} (class : Schemas.namespace -> C)
    (instantiate : C -> I -> result T) (kwargs : I) :
  Schemas.construct class instantiate kwargs = Failed Schemas.import_error.
Proof. reflexivity. Qed.

Module Py_facts.
Import Py.

Lemma list_truthy_false {A} (l : list A) : list_truthy l = false <-> l = [].
Proof. destruct l; simpl; split; congruence. Qed.

Lemma list_truthy_true {A} (l : list A) : list_truthy l = true <-> l <> [].
Proof. destruct l; simpl; split; congruence. Qed.

(** A slice that starts a positive number of places from the end is the
    list of the last so many elements. *)
Lemma slice_from_neg {A} (n : nat) (l : list A) :
  (0 < n)%nat -> slice_from (- Z.of_nat n) l = lastn n l.
Proof.
  intros Hn. unfold slice_from, lastn.
  destruct (Z.ltb_spec (- Z.of_nat n) 0) as [_|]; [|lia].
  f_equal. lia.
Qed.

(** A slice from place 0 is the whole list: this is what [l[-0:]] is. *)
Lemma slice_from_0 {A} (l : list A) : slice_from 0 l = l.
Proof.
  unfold slice_from. simpl.
  replace (Z.to_nat (Z.min 0 (Z.of_nat (length l)))) with 0%nat by lia.
  apply drop_0.
Qed.

Lemma length_lastn {A} (n : nat) (l : list A) :
  length (lastn n l) = Nat.min n (length l).
Proof. unfold lastn. rewrite length_drop. lia. Qed.

Lemma lastn_all {A} (n : nat) (l : list A) :
  (length l <= n)%nat -> lastn n l = l.
Proof.
  intros H. unfold lastn.
  replace (length l - n)%nat with 0%nat by lia. apply drop_0.
Qed.

Lemma lastn_suffix {A} (n : nat) (l : list A) : lastn n l `suffix_of` l.
Proof. apply suffix_drop. Qed.

(** Cutting to the last [n] before appending does not change the last [n]
    of the whole. *)
Lemma lastn_lastn_app {A} (n : nat) (l k : list A) :
  lastn n (lastn n l ++ k) = lastn n (l ++ k).
Proof.
  unfold lastn. rewrite !length_app, length_drop.
  set (p := (length l - n)%nat).
  assert (Hl : l ++ k = take p l ++ drop p l ++ k)
    by (by rewrite app_assoc, take_drop).
  assert (Hp : length (take p l) = p) by (rewrite length_take; lia).
  rewrite Hl.
  replace (length l + length k - n)%nat
    with (length (take p l) + (length l - p + length k - n))%nat by lia.
  by rewrite drop_app_add.
Qed.

End Py_facts.

(** ** The classes as the module defines them *)

Module Schemas_facts.
Import Schemas.

(** C1.  With [requires_clarification = False] and the one question
    "What category?", where the specification has the construction succeed
    with the flag forced to true, the construction attempt ends in the
    [PydanticUserError] that the decorator raises on [validate_amount]
    while the module runs, whatever the framework would do with the class:
    no AssistantResponse with the flag forced to true is constructed. *)
Theorem forced_flag_attempt_raises :
  forall (T : Type)
    (instantiate : AssistantResponse.cls -> AssistantResponse.input -> result T),
    new_AssistantResponse instantiate
      (AssistantResponse.minimal "help" true "Which one?" false
         ["What category?"])
    = Failed import_error.
Proof. intros T instantiate. apply construct_raises. Qed.


(** C3.  With [requires_clarification = False] and questions that are all
    white space, the attempt does not succeed: it ends in the
    [PydanticUserError] of the module; and so does every other attempt, so
    that no constructed object exists, with or without a question. *)
Theorem no_response_is_constructed :
  (forall (T : Type)
     (instantiate : AssistantResponse.cls -> AssistantResponse.input -> result T),
     new_AssistantResponse instantiate
       (AssistantResponse.minimal "unclear" false "Please say more" false
          ["   "; " "])
     = Failed import_error)
  /\ (forall (T : Type)
        (instantiate : AssistantResponse.cls -> AssistantResponse.input
                       -> result T)
        (kwargs : AssistantResponse.input) (o : T),
        new_AssistantResponse instantiate kwargs <> Ok o).
Proof.
  split.
  - intros T instantiate. apply construct_raises.
  - intros T instantiate kwargs o.
    unfold new_AssistantResponse. by rewrite construct_raises.
Qed.

(** C4.  With notes that are all white space, the attempt is an
    error, the [PydanticUserError] of the module, not an object whose notes
    are null.  (The class body, besides, declares no validator for the
    notes: its three validators are those of [cls].) *)
Theorem blank_notes_attempt_raises :
  forall (T : Type)
    (instantiate : ExpenseData.cls -> ExpenseData.input -> result T),
    new_ExpenseData instantiate
      (ExpenseData.Input None None None None None None (Some (Py.text "   "))
         None None)
    = Failed import_error.
Proof. intros T instantiate. apply construct_raises. Qed.


(** C8.  For every confidence score, within the bounds or not, and so for
    0.5 and for the boundary values 0.0 and 1.0, the construction attempt
    does not succeed: it ends in the [PydanticUserError] of the module. *)
Theorem score_in_range_attempt_raises :
  forall (T : Type)
    (instantiate : ClassificationResult.cls -> ClassificationResult.input
                   -> result T)
    (s : float),
    new_ClassificationResult instantiate
      (ClassificationResult.Input None None (Some "high") (Some s) None None)
    = Failed import_error.
Proof. intros T instantiate s. apply construct_raises. Qed.


(** X22.  Each of the five model classes decorates, as the first function
    of its body, a validator whose first parameter is [self]: each class
    body raises [PydanticUserError] there, on its own account, and the run
    of the module ends at the first of them, [validate_amount].  The
    decorator accepts the same functions once their first parameter is
    called otherwise. *)
Theorem every_class_body_raises :
  ExpenseData.class_body
  = Failed (Err "validate_amount" (PydanticUserError "validator-instance-method"))
  /\ ClassificationResult.class_body
     = Failed (Err "validate_alternatives"
                 (PydanticUserError "validator-instance-method"))
  /\ AssistantResponse.class_body
     = Failed (Err "validate_message"
                 (PydanticUserError "validator-instance-method"))
  /\ ConversationContext.class_body
     = Failed (Err "validate_conversation_history"
                 (PydanticUserError "validator-instance-method"))
  /\ ErrorResponse.class_body
     = Failed (Err "validate_error_message"
                 (PydanticUserError "validator-instance-method"))
  /\ exec_module = Failed import_error
  /\ (forall (A B : Type) (field name : string) (rest : list string)
             (f : A -> B),
        field_validator field (Def name ("cls" :: rest) f)
        = Ok (Validator true f)).
Proof. repeat split. Qed.

End Schemas_facts.

(** ** ClassificationResult: the alternatives *)

Module ClassificationResult_facts.
Import ClassificationResult.

(** What the loop body accepts. *)
Lemma check_alternative_Ok_inv (alt : pyvalue) (u : unit) :
  check_alternative alt = Ok u ->
  exists d name score,
    alt = PDict d /\ d !! "name" = Some name /\ d !! "score" = Some score
    /\ is_int_or_float score = true /\ between_0_and_1 score = true.
Proof.
  destruct alt as [v|l|d]; cbn [check_alternative]; try done.
  destruct (d !! "name") as [name|] eqn:En; [|done].
  destruct (d !! "score") as [score|] eqn:Es; [|done].
  destruct (is_int_or_float score) eqn:E1; [|done].
  destruct (between_0_and_1 score) eqn:E2; [|done].
  intros _. by exists d, name, score.
Qed.

Lemma between_score_ok (v : pyscalar) :
  is_int_or_float v = true -> between_0_and_1 v = true -> score_ok v.
Proof.
  unfold score_ok. destruct v as [|b|n|x|s]; simpl; try done.
  - intros _ _. exists (if b then 1 else 0)%Q. split; [done|].
    by destruct b; vm_compute.
  - intros _ [H0 H1]%andb_true_iff. exists (inject_Z n). split; [done|].
    apply Z.leb_le in H0, H1. unfold Qle. simpl. lia.
  - intros _ [H0 H1]%andb_true_iff.
    destruct x as [|[|]|q]; simpl in *; try done.
    exists q. by rewrite <- !Qle_bool_iff.
Qed.

Lemma check_alternative_well_formed (alt : pyvalue) (u : unit) :
  check_alternative alt = Ok u -> ~ malformed alt.
Proof.
  intros (d & name & score & -> & Hn & Hs & H1 & H2)%check_alternative_Ok_inv.
  pose proof (between_score_ok score H1 H2) as Hok.
  inversion 1; congruence.
Qed.

Lemma check_alternatives_Forall (v : list pyvalue) (u : unit) :
  check_alternatives v = Ok u -> Forall (fun alt => ~ malformed alt) v.
Proof.
  induction v as [|alt v IH]; simpl; [by constructor|].
  intros H. bind_inv H. constructor; [|by apply IH].
  by eapply check_alternative_well_formed.
Qed.

(** C9.  For every alternatives list: if any single entry is not a
    mapping, lacks "name", lacks "score", or carries a score that is not a
    number of [0, 1], the validator refuses the whole list, and every
    construction attempt given that list fails.  No partially filtered
    list is ever accepted: a list the validator accepts is returned as it
    was given, and none of its entries is malformed. *)
Theorem malformed_alternative_rejects_list (alts : list pyvalue) :
  (Exists malformed alts ->
   fails (validate_alternatives alts)
   /\ forall (T : Type) (instantiate : cls -> input -> result T) (i : input),
        in_alternative_categories i = Some alts ->
        fails (Schemas.new_ClassificationResult instantiate i))
  /\ (forall v', validate_alternatives alts = Ok v' ->
                 v' = alts /\ Forall (fun alt => ~ malformed alt) alts).
Proof.
  split.
  - intros Hex. split.
    + apply succeeds_fails.
      destruct (validate_alternatives alts) as [v|] eqn:E; [exfalso|done].
      unfold validate_alternatives in E. bind_inv E.
      apply check_alternatives_Forall in Hm.
      apply Exists_exists in Hex as (alt & Hin & Hbad).
      rewrite Forall_forall in Hm. by apply (Hm alt).
    + intros T instantiate i _. unfold Schemas.new_ClassificationResult.
      rewrite construct_raises. apply fails_Failed.
  - intros v' E. unfold validate_alternatives in E. bind_inv E.
    inversion E; subst. split; [done|].
    by eapply check_alternatives_Forall.
Qed.

Lemma malformed_alternative_rejects_list_witness :
  fails (validate_alternatives second_lacks_score).
Proof.
  apply (proj1 (malformed_alternative_rejects_list second_lacks_score)).
  apply Exists_cons_tl, Exists_cons_hd, lacks_score. reflexivity.
Defined.

End ClassificationResult_facts.

(** ** ConversationContext: the bounded history *)

Module ConversationContext_facts.
Import ConversationContext.

(** One call: the new entry goes to the end and the last 10 are kept;
    nothing else of the context changes. *)
Lemma add_message_exec (role content : string) (self : t) :
  exec (add_message role content) self
  = set_conversation_history
      (Py.lastn 10 (conversation_history self ++ [entry role content])) self.
Proof.
  unfold add_message, exec, seq, get, put, ret. cbn [snd fst].
  cbn [set_conversation_history conversation_history user_name
       last_expense_data last_action user_preferences].
  set (h := conversation_history self ++ [entry role content]).
  destruct (Nat.ltb_spec 10 (length h)) as [Hlen|Hlen]; cbn [snd].
  - unfold set_conversation_history. cbn. f_equal.
    apply (Py_facts.slice_from_neg 10). lia.
  - unfold set_conversation_history. cbn. f_equal.
    symmetry. apply Py_facts.lastn_all. lia.
Qed.

Lemma add_messages_cons (m : string * string) (msgs : list (string * string))
    (self : t) :
  exec (add_messages (m :: msgs)) self
  = exec (add_messages msgs) (exec (add_message (fst m) (snd m)) self).
Proof.
  destruct m as [role content]. unfold exec. cbn [add_messages seq fst snd].
  unfold seq. by destruct (add_message role content self).
Qed.

Lemma set_conversation_history_twice h h' (self : t) :
  set_conversation_history h (set_conversation_history h' self)
  = set_conversation_history h self.
Proof. reflexivity. Qed.

(** After at least one call the history is the last 10 of everything
    that was ever in it. *)
Lemma add_messages_exec (m : string * string) (msgs : list (string * string))
    (self : t) :
  exec (add_messages (m :: msgs)) self
  = set_conversation_history
      (Py.lastn 10 (conversation_history self ++ entries (m :: msgs))) self.
Proof.
  revert m self. induction msgs as [|m' msgs IH]; intros m self.
  - rewrite add_messages_cons, add_message_exec. reflexivity.
  - rewrite add_messages_cons, IH, add_message_exec.
    rewrite set_conversation_history_twice. f_equal.
    cbn [conversation_history set_conversation_history].
    rewrite Py_facts.lastn_lastn_app.
    by rewrite <- app_assoc.
Qed.

(** C5.  After any run of [add_message] calls (at least one) on any
    context, the history is the last 10 entries of the former history
    followed by the added entries, in their order: at most 10 entries, the
    oldest dropped first, and nothing else of the context changed.  On the
    empty context a run of any length leaves the last 10 added entries; a
    run of 12 leaves exactly the last 10 of the 12. *)
Theorem history_is_sliding_window :
  (forall (self : t) (m : string * string) (msgs : list (string * string)),
     let self' := exec (add_messages (m :: msgs)) self in
     self' = set_conversation_history
               (Py.lastn 10 (conversation_history self ++ entries (m :: msgs)))
               self
     /\ (length (conversation_history self') <= 10)%nat
     /\ conversation_history self'
        `suffix_of` conversation_history self ++ entries (m :: msgs))
  /\ (forall msgs : list (string * string),
        conversation_history (exec (add_messages msgs) empty)
        = Py.lastn 10 (entries msgs))
  /\ (forall msgs : list (string * string),
        length msgs = 12%nat ->
        conversation_history (exec (add_messages msgs) empty)
        = drop 2 (entries msgs)
        /\ length (conversation_history (exec (add_messages msgs) empty))
           = 10%nat).
Proof.
  assert (Hempty : forall msgs : list (string * string),
            conversation_history (exec (add_messages msgs) empty)
            = Py.lastn 10 (entries msgs)).
  { intros [|m msgs]; [reflexivity|]. by rewrite add_messages_exec. }
  split; [|split; [exact Hempty|]].
  - intros self m msgs. cbn zeta. rewrite add_messages_exec.
    split; [reflexivity|]. cbn [conversation_history set_conversation_history].
    split; [rewrite Py_facts.length_lastn; lia | apply Py_facts.lastn_suffix].
  - intros msgs Hlen. rewrite Hempty. unfold Py.lastn, entries.
    rewrite length_map, Hlen. split; [reflexivity|].
    rewrite length_drop, length_map. lia.
Qed.

Lemma history_is_sliding_window_witness :
  conversation_history (exec (add_messages twelve) empty)
  = [entry "user" "3"; entry "assistant" "4"; entry "user" "5";
     entry "assistant" "6"; entry "user" "7"; entry "assistant" "8";
     entry "user" "9"; entry "assistant" "10"; entry "user" "11";
     entry "assistant" "12"].
Proof.
  destruct (proj2 (proj2 history_is_sliding_window) twelve) as [H _];
    [reflexivity|].
  rewrite H. reflexivity.
Defined.

(** For a count of at least 1, [get_recent_messages] returns the last
    [count] entries in order (all of them when the history is shorter,
    none when it is empty) and leaves the context as it was. *)
Lemma get_recent_messages_positive (count : Z) (self : t) :
  0 < count ->
  eval (get_recent_messages count) self
  = Py.lastn (Z.to_nat count) (conversation_history self)
  /\ exec (get_recent_messages count) self = self.
Proof.
  intros Hc. unfold get_recent_messages, eval, exec, seq, get, ret.
  cbn [fst snd]. split; [|reflexivity].
  destruct (conversation_history self) as [|e h] eqn:E; [reflexivity|].
  cbn [Py.list_truthy].
  rewrite <- (Py_facts.slice_from_neg (Z.to_nat count)) by lia.
  f_equal. lia.
Qed.

Lemma get_recent_messages_pure (count : Z) (self : t) :
  exec (get_recent_messages count) self = self.
Proof. reflexivity. Qed.

(** X23.  With a count of 0 the slice [history[-0:]] is [history[0:]]:
    [get_recent_messages(0)] returns the whole history, not its last 0
    entries.  On a history of three entries it returns all three. *)
Theorem get_recent_messages_zero_returns_all :
  (forall self : t,
     eval (get_recent_messages 0) self = conversation_history self)
  /\ eval (get_recent_messages 0) three
     = [entry "user" "a"; entry "assistant" "b"; entry "user" "c"]
  /\ eval (get_recent_messages 0) three
     <> Py.lastn 0 (conversation_history three).
Proof.
  split; [|split].
  - intros self. unfold get_recent_messages, eval, seq, get, ret.
    cbn [fst]. destruct (conversation_history self) as [|e h]; [reflexivity|].
    cbn [Py.list_truthy]. apply Py_facts.slice_from_0.
  - reflexivity.
  - discriminate.
Qed.

(** What the history validator accepts. *)
Lemma check_entries_Forall (v : list (gmap string string)) (u : unit) :
  check_entries v = Ok u -> Forall (fun e => check_entry e = Ok tt) v.
Proof.
  induction v as [|e v IH]; simpl; [by constructor|].
  intros H. bind_inv H. constructor; [by destruct a|by apply IH].
Qed.

Lemma check_entry_role (role content : string) :
  role ∉ ["user"; "assistant"] -> fails (check_entry (entry role content)).
Proof.
  intros Hr. unfold check_entry, entry.
  rewrite lookup_insert_ne, lookup_insert_eq by done.
  rewrite lookup_insert_eq.
  rewrite bool_decide_eq_false_2 by done. apply fails_Failed.
Qed.

Lemma last_lastn_snoc {A} (n : nat) (l : list A) (x : A) :
  (0 < n)%nat -> last (Py.lastn n (l ++ [x])) = Some x.
Proof.
  intros Hn. unfold Py.lastn. rewrite length_app. simpl.
  rewrite drop_app_le by lia. apply last_snoc.
Qed.

(** C7.  [add_message] does not look at its role argument.  For every
    role outside "user" and "assistant", on every context, and so also on
    one whose history the history validator accepts, the call goes through
    and appends the entry as the last one, and the history it leaves is
    one the history validator refuses. *)
Theorem add_message_does_not_validate_role (self : t) (role content : string) :
  role ∉ ["user"; "assistant"] ->
  let self' := exec (add_message role content) self in
  last (conversation_history self') = Some (entry role content)
  /\ fails (validate_conversation_history (conversation_history self')).
Proof.
  intros Hr. cbn zeta. rewrite add_message_exec.
  cbn [conversation_history set_conversation_history].
  assert (Hlast : last (Py.lastn 10 (conversation_history self
                                     ++ [entry role content]))
                  = Some (entry role content))
    by (apply last_lastn_snoc; lia).
  split; [exact Hlast|].
  apply succeeds_fails.
  destruct (validate_conversation_history _) as [v|] eqn:E; [exfalso|done].
  unfold validate_conversation_history in E. bind_inv E.
  apply check_entries_Forall in Hm.
  apply last_Some_elem_of in Hlast.
  rewrite Forall_forall in Hm. specialize (Hm _ Hlast).
  destruct (check_entry_role role content Hr) as [e He]. congruence.
Qed.

Lemma add_message_does_not_validate_role_witness :
  validate_conversation_history (conversation_history three)
  = Ok (conversation_history three)
  /\ last (conversation_history (exec (add_message "system" "be kind") three))
     = Some (entry "system" "be kind")
  /\ fails (validate_conversation_history
              (conversation_history
                 (exec (add_message "system" "be kind") three))).
Proof.
  split; [reflexivity|].
  apply (add_message_does_not_validate_role three "system" "be kind").
  intros Hin. repeat (apply elem_of_cons in Hin as [Hin|Hin]; [discriminate|]).
  by apply elem_of_nil in Hin.
Defined.

End ConversationContext_facts.

(** ** Trimming *)

Module Strip_facts.
Import Py.

Lemma lstrip_split (s : list N) :
  exists a, s = a ++ lstrip s /\ all_space a = true.
Proof.
  induction s as [|c s (a & Ha & Hsp)]; [by exists []|].
  simpl. destruct (isspace c) eqn:E.
  - exists (c :: a). simpl. rewrite E, Hsp. split; [|done]. by rewrite <- Ha.
  - by exists [].
Qed.

Lemma rstrip_split (s : list N) :
  exists b, s = rstrip s ++ b /\ all_space b = true.
Proof.
  induction s as [|c s (b & Hb & Hsp)]; [by exists []|].
  simpl. destruct (rstrip s) as [|c' r] eqn:E.
  - simpl in Hb. subst b. destruct (isspace c) eqn:Ec.
    + exists (c :: s). simpl. by rewrite Ec, Hsp.
    + exists s. by split.
  - exists b. split; [|done]. simpl. by rewrite Hb at 1.
Qed.

Lemma lstrip_no_leading_space (s : list N) :
  starts_with_space (lstrip s) = false.
Proof.
  induction s as [|c s IH]; simpl; [done|].
  destruct (isspace c) eqn:E; [done|]. simpl. exact E.
Qed.

Lemma rstrip_no_trailing_space (s : list N) :
  ends_with_space (rstrip s) = false.
Proof.
  induction s as [|c s IH]; simpl; [done|].
  destruct (rstrip s) as [|c' r] eqn:E.
  - destruct (isspace c) eqn:Ec; simpl; [done|exact Ec].
  - exact IH.
Qed.

Lemma rstrip_keeps_head (s : list N) :
  starts_with_space s = false -> starts_with_space (rstrip s) = false.
Proof.
  destruct s as [|c s]; simpl; [done|]. intros Hc.
  destruct (rstrip s); [by rewrite Hc|done].
Qed.

Lemma lstrip_fixed (s : list N) : starts_with_space s = false -> lstrip s = s.
Proof. destruct s as [|c s]; simpl; [done|]. by intros ->. Qed.

Lemma rstrip_fixed (s : list N) : ends_with_space s = false -> rstrip s = s.
Proof.
  induction s as [|c s IH]; simpl; [done|].
  destruct s as [|c' s']; [by intros ->|].
  intros H. rewrite (IH H). done.
Qed.

Lemma all_space_app (a b : list N) :
  all_space (a ++ b) = all_space a && all_space b.
Proof.
  induction a as [|c a IH]; simpl; [done|]. by rewrite IH, andb_assoc.
Qed.

Lemma lstrip_all_space (s : list N) : all_space s = true -> lstrip s = [].
Proof.
  induction s as [|c s IH]; simpl; [done|].
  intros [-> Hs]%andb_true_iff. by apply IH.
Qed.

(** [strip] removes white space at the two ends and nothing else: the
    argument is the result between two runs of white space, and the result
    neither begins nor ends with a white-space character.  Hence stripping
    twice is stripping once, and a text strips to the empty text exactly
    when it is all white space. *)
Lemma strip_spec (s : list N) :
  (exists a b, s = a ++ strip s ++ b
               /\ all_space a = true /\ all_space b = true)
  /\ starts_with_space (strip s) = false
  /\ ends_with_space (strip s) = false
  /\ strip (strip s) = strip s
  /\ (strip s = [] <-> all_space s = true).
Proof.
  assert (Hs : starts_with_space (strip s) = false)
    by apply rstrip_keeps_head, lstrip_no_leading_space.
  assert (He : ends_with_space (strip s) = false)
    by apply rstrip_no_trailing_space.
  assert (Hsplit : exists a b, s = a ++ strip s ++ b
                               /\ all_space a = true /\ all_space b = true).
  { destruct (lstrip_split s) as (a & Ha & Hsa).
    destruct (rstrip_split (lstrip s)) as (b & Hb & Hsb).
    exists a, b. unfold strip. by rewrite <- Hb, <- Ha. }
  split; [exact Hsplit|split; [exact Hs|split; [exact He|split]]].
  - unfold strip at 1. by rewrite (lstrip_fixed _ Hs), (rstrip_fixed _ He).
  - split.
    + intros H. destruct Hsplit as (a & b & Hab & Ha & Hb).
      rewrite H in Hab. simpl in Hab. rewrite Hab, all_space_app.
      by rewrite Ha, Hb.
    + intros H. unfold strip. by rewrite (lstrip_all_space s H).
Qed.

(** The test [if not v] made on a stripped text. *)
Lemma strip_truthy (s : list N) : list_truthy (strip s) = negb (all_space s).
Proof.
  destruct (strip_spec s) as (_ & _ & _ & _ & Hiff).
  destruct (strip s) as [|c r] eqn:E; simpl.
  - by rewrite (proj1 Hiff eq_refl).
  - destruct (all_space s); [|done]. discriminate (proj2 Hiff eq_refl).
Qed.

Lemma strip_truthy_nonempty (s : list N) :
  list_truthy (strip s) = true -> strip s <> [].
Proof. by destruct (strip s). Qed.

(** What a body of the shape "strip, refuse the empty text, return" does;
    [validate_message] and [validate_error_message] are two of them. *)
Lemma strip_or_refuse (e : error) (v : list N) :
  let body := if negb (list_truthy (strip v)) then Failed e else Ok (strip v) in
  (body = Failed e <-> all_space v = true)
  /\ (forall m, body = Ok m ->
        m = strip v /\ m <> []
        /\ starts_with_space m = false /\ ends_with_space m = false
        /\ (exists a b, v = a ++ m ++ b
                        /\ all_space a = true /\ all_space b = true)
        /\ strip m = m /\ all_space m = false).
Proof.
  cbn zeta. destruct (strip_spec v) as (Hsplit & Hs & He & Hidem & Hnil).
  rewrite strip_truthy, negb_involutive.
  destruct (all_space v) eqn:E; [by split|].
  split; [by split|]. intros m [= <-].
  assert (Hne : strip v <> []) by (intros H; apply Hnil in H; discriminate).
  repeat split; try done.
  destruct (all_space (strip v)) eqn:E'; [|done].
  destruct Hne. rewrite <- Hidem.
  by apply (proj2 (proj2 (proj2 (proj2 (strip_spec (strip v)))))).
Qed.

End Strip_facts.

(** ** Enumerations *)

Module Enum_facts.

Lemma enum_of_string_value {E} (members : list E) (value : E -> string)
    (s : string) (e : E) :
  enum_of_string members value s = Some e -> value e = s.
Proof.
  unfold enum_of_string. intros [_ H]%find_some. by apply String.eqb_eq.
Qed.

(** X1.  The string values of [ActionType] and of [ConfidenceLevel] name
    their members one to one: a member is found back from its value, and a
    string that is accepted is the value of the member it yields, so two
    members never share a value and exactly the declared strings are
    accepted. *)
Theorem schema_enums_round_trip :
  (forall a, ActionType_of_string (ActionType_value a) = Some a)
  /\ (forall s a, ActionType_of_string s = Some a -> ActionType_value a = s)
  /\ (forall c, ConfidenceLevel_of_string (ConfidenceLevel_value c) = Some c)
  /\ (forall s c, ConfidenceLevel_of_string s = Some c ->
                  ConfidenceLevel_value c = s).
Proof.
  repeat split.
  - by intros [].
  - intros s a. apply enum_of_string_value.
  - by intros [].
  - intros s c. apply enum_of_string_value.
Qed.

(** X2.  The same for the two enumerations of the data model: the 10
    currency codes and the 7 payment methods are pairwise distinct strings,
    each accepted and each giving back its member. *)
Theorem model_enums_round_trip :
  (forall c, Currency_of_string (Currency_value c) = Some c)
  /\ (forall s c, Currency_of_string s = Some c -> Currency_value c = s)
  /\ (forall p, PaymentMethod_of_string (PaymentMethod_value p) = Some p)
  /\ (forall s p, PaymentMethod_of_string s = Some p ->
                  PaymentMethod_value p = s).
Proof.
  repeat split.
  - by intros [].
  - intros s c. apply enum_of_string_value.
  - by intros [].
  - intros s p. apply enum_of_string_value.
Qed.

End Enum_facts.

(** ** ClassificationResult: what the alternatives validator accepts *)

Module ClassificationResult_construct_facts.
Import ClassificationResult ClassificationResult_facts.

Lemma score_ok_between (v : pyscalar) :
  score_ok v -> is_int_or_float v = true /\ between_0_and_1 v = true.
Proof.
  intros (q & Hq & H0 & H1).
  destruct v as [|b|n|x|s]; cbn [number is_int_or_float between_0_and_1] in *;
    try done.
  - injection Hq as <-. split; [done|].
    unfold Qle in H0, H1. simpl in H0, H1.
    apply andb_true_iff. split; apply Z.leb_le; lia.
  - destruct x as [|[|]|q']; try done. injection Hq as <-.
    split; [done|]. cbn [float_le]. apply andb_true_iff.
    by rewrite !Qle_bool_iff.
Qed.

Lemma well_formed_accepted (alt : pyvalue) :
  ~ malformed alt -> check_alternative alt = Ok tt.
Proof.
  intros Hwf. destruct alt as [v|l|d].
  - destruct Hwf. constructor.
  - destruct Hwf. constructor.
  - cbn [check_alternative].
    destruct (d !! "name") as [name|] eqn:En;
      [|destruct Hwf; by apply lacks_name].
    destruct (d !! "score") as [score|] eqn:Es;
      [|destruct Hwf; by apply lacks_score].
    destruct (is_int_or_float score) eqn:E1, (between_0_and_1 score) eqn:E2;
      try done; destruct Hwf; apply (bad_score d score Es);
      intros [H1 H2]%score_ok_between; congruence.
Qed.

(** X12.  [validate_alternatives] accepts a list exactly when none of its
    entries is malformed, and then returns the list unchanged.  Nothing else
    is required of an entry: the value under "name" is not examined and
    further keys are allowed. *)
Theorem validate_alternatives_iff (v : list pyvalue) :
  (succeeds (validate_alternatives v) = true <->
   Forall (fun alt => ~ malformed alt) v)
  /\ (forall v', validate_alternatives v = Ok v' -> v' = v).
Proof.
  unfold validate_alternatives. split.
  - split.
    + destruct (check_alternatives v) as [[]|] eqn:E; [intros _|done].
      by eapply check_alternatives_Forall.
    + intros H. assert (Hc : check_alternatives v = Ok tt).
      { induction H as [|alt v Hwf _ IH]; simpl; [done|].
        by rewrite (well_formed_accepted alt Hwf). }
      by rewrite Hc.
  - intros v' H. bind_inv H. by inversion H.
Qed.

Lemma validate_alternatives_iff_witness :
  succeeds (validate_alternatives
              [PDict (<["score" := PInt 1]>
                        (<["name" := PNone]> (<["rank" := PInt 7]> ∅)))])
  = true.
Proof.
  apply (proj1 (validate_alternatives_iff _)).
  constructor; [|constructor].
  inversion 1 as [| |d Hn|d Hs|d v Hs Hbad]; subst.
  - by vm_compute in Hn.
  - by vm_compute in Hs.
  - vm_compute in Hs. injection Hs as <-. apply Hbad.
    exists 1%Q. split; [done|]. split; by vm_compute.
Defined.

End ClassificationResult_construct_facts.

(** ** ConversationContext: validation and reading of the history *)

Module ConversationContext_history_facts.
Import ConversationContext ConversationContext_facts.

(** An entry the history validator accepts: it has a content, and a role
    that is "user" or "assistant". *)
Lemma check_entry_Ok_iff (e : gmap string string) :
  check_entry e = Ok tt <->
  is_Some (e !! "content")
  /\ exists role, e !! "role" = Some role /\ role ∈ ["user"; "assistant"].
Proof.
  unfold check_entry.
  destruct (e !! "role") as [role|]; [|split; [done|by intros (_ & ? & ? & _)]].
  destruct (e !! "content") as [c|];
    [|split; [done|by intros ([? ?] & _)]].
  case_bool_decide as Hr; split; try done.
  - intros _. split; [by eexists|]. by exists role.
  - intros (_ & role' & [= <-] & Hin). done.
Qed.

Lemma check_entries_Ok_iff (v : list (gmap string string)) :
  check_entries v = Ok tt <-> Forall (fun e => check_entry e = Ok tt) v.
Proof.
  split; [apply check_entries_Forall|].
  induction 1 as [|e v He _ IH]; simpl; [done|]. by rewrite He.
Qed.

(** X14.  [validate_conversation_history] accepts a history exactly when
    every entry has a "content" and a "role" that is "user" or "assistant",
    and then returns the history unchanged; one entry that is not so makes
    it refuse the whole history.  Further keys of an entry are allowed. *)
Theorem validate_history_iff (v : list (gmap string string)) :
  (succeeds (validate_conversation_history v) = true <->
   Forall (fun e => is_Some (e !! "content")
                    /\ exists role, e !! "role" = Some role
                                    /\ role ∈ ["user"; "assistant"]) v)
  /\ (forall v', validate_conversation_history v = Ok v' -> v' = v).
Proof.
  unfold validate_conversation_history. split.
  - split.
    + destruct (check_entries v) as [[]|] eqn:E; [intros _|done].
      apply check_entries_Ok_iff in E.
      eapply Forall_impl; [exact E|]. intros e. apply check_entry_Ok_iff.
    + intros H. assert (Hc : check_entries v = Ok tt).
      { apply check_entries_Ok_iff. eapply Forall_impl; [exact H|].
        intros e. apply check_entry_Ok_iff. }
      by rewrite Hc.
  - intros v' H. bind_inv H. by inversion H.
Qed.

Lemma validate_history_iff_witness :
  succeeds (validate_conversation_history
              [<["at" := "09:00"]> (entry "user" "hi"); entry "assistant" ""])
  = true.
Proof.
  apply (proj1 (validate_history_iff _)).
  repeat constructor; try (by eexists);
    eexists; (split; [reflexivity|]); set_solver.
Defined.

(** X15.  [add_message] with the role "user" or "assistant" keeps a valid
    history valid: if the history validator accepts the history before the
    call, it accepts the history after it. *)
Theorem add_message_keeps_valid (self : t) (role content : string) :
  role ∈ ["user"; "assistant"] ->
  succeeds (validate_conversation_history (conversation_history self)) = true ->
  succeeds (validate_conversation_history
              (conversation_history (exec (add_message role content) self)))
  = true.
Proof.
  intros Hr Hv. rewrite add_message_exec.
  cbn [conversation_history set_conversation_history].
  apply validate_history_iff. apply validate_history_iff in Hv.
  eapply Forall_impl with (P := fun e => e ∈ conversation_history self
                                          ++ [entry role content]); [|].
  - apply Forall_forall. intros e He.
    eapply elem_of_suffix; [exact He|apply Py_facts.lastn_suffix].
  - intros e [He| ->%list_elem_of_singleton]%elem_of_app.
    + rewrite Forall_forall in Hv. by apply Hv.
    + unfold entry. split.
      * rewrite lookup_insert_eq. by eexists.
      * exists role. by rewrite lookup_insert_ne, lookup_insert_eq.
Qed.

Lemma add_message_keeps_valid_witness :
  succeeds (validate_conversation_history
              (conversation_history
                 (exec (add_message "assistant" "hello") three))) = true.
Proof.
  apply (add_message_keeps_valid three "assistant" "hello");
    [set_solver | reflexivity].
Defined.

Lemma add_message_length_last (self : t) (role content : string) :
  let h' := conversation_history (exec (add_message role content) self) in
  length h' = Nat.min 10 (length (conversation_history self) + 1)
  /\ last h' = Some (entry role content).
Proof.
  cbn zeta. rewrite add_message_exec.
  cbn [conversation_history set_conversation_history]. split.
  - rewrite Py_facts.length_lastn, length_app. simpl. lia.
  - apply last_lastn_snoc. lia.
Qed.

(** X16.  One [add_message] call on a history of fewer than 10 entries
    appends the entry and drops nothing; on a history of exactly 10 it
    appends the entry and drops exactly the oldest one.  In every case the
    history afterwards has [min 10 (n + 1)] entries, [n] being the length
    before, and ends with the new entry. *)
Theorem add_message_step (self : t) (role content : string) :
  let h := conversation_history self in
  let h' := conversation_history (exec (add_message role content) self) in
  ((length h < 10)%nat -> h' = h ++ [entry role content])
  /\ (length h = 10%nat -> h' = drop 1 h ++ [entry role content])
  /\ length h' = Nat.min 10 (length h + 1)
  /\ last h' = Some (entry role content).
Proof.
  cbn zeta. split; [|split; [|apply add_message_length_last]];
    rewrite add_message_exec;
    cbn [conversation_history set_conversation_history].
  - intros Hlen. apply Py_facts.lastn_all. rewrite length_app. simpl. lia.
  - intros Hlen. unfold Py.lastn. rewrite length_app, Hlen. simpl.
    apply drop_app_le. lia.
Qed.

Lemma add_message_step_witness :
  conversation_history (exec (add_message "user" "d") three)
  = conversation_history three ++ [entry "user" "d"].
Proof.
  apply (proj1 (add_message_step three "user" "d")). simpl. lia.
Defined.

(** X17.  For a count of at least 1, [get_recent_messages] returns the last
    [count] entries of the history in their order, all of them when the
    history is shorter and none when it is empty, so [min count n] entries
    for a history of [n]; the context is left as it was. *)
Theorem recent_messages_positive_count (count : Z) (self : t) :
  0 < count ->
  let r := eval (get_recent_messages count) self in
  r = Py.lastn (Z.to_nat count) (conversation_history self)
  /\ r `suffix_of` conversation_history self
  /\ length r = Nat.min (Z.to_nat count) (length (conversation_history self))
  /\ ((length (conversation_history self) <= Z.to_nat count)%nat ->
      r = conversation_history self)
  /\ exec (get_recent_messages count) self = self.
Proof.
  intros Hc. cbn zeta.
  destruct (get_recent_messages_positive count self Hc) as [-> Hp].
  split; [done|]. split; [apply Py_facts.lastn_suffix|].
  split; [apply Py_facts.length_lastn|]. split; [apply Py_facts.lastn_all|done].
Qed.

Lemma recent_messages_positive_count_witness :
  eval (get_recent_messages 5) three = conversation_history three
  /\ eval (get_recent_messages 2) three
     = [entry "assistant" "b"; entry "user" "c"].
Proof.
  split.
  - apply (recent_messages_positive_count 5 three); [lia | simpl; lia].
  - destruct (recent_messages_positive_count 2 three) as [H _]; [lia|].
    exact H.
Defined.

(** X18.  For a negative count [-k], [get_recent_messages] returns the
    history without its [k] oldest entries (nothing when the history has no
    more than [k]), again without changing the context. *)
Theorem recent_messages_negative_count (k : nat) (self : t) :
  (0 < k)%nat ->
  eval (get_recent_messages (- Z.of_nat k)) self
  = drop k (conversation_history self)
  /\ exec (get_recent_messages (- Z.of_nat k)) self = self.
Proof.
  intros Hk. split; [|reflexivity].
  unfold get_recent_messages, eval, seq, get, ret. cbn [fst].
  destruct (conversation_history self) as [|e h] eqn:E;
    [by rewrite drop_nil|].
  cbn [Py.list_truthy]. unfold Py.slice_from.
  destruct (Z.ltb_spec (- - Z.of_nat k) 0) as [|_]; [lia|].
  destruct (Nat.le_gt_cases k (length (e :: h))) as [Hle|Hgt].
  - f_equal. lia.
  - rewrite (drop_ge (e :: h) k) by lia.
    apply drop_ge. lia.
Qed.

Lemma recent_messages_negative_count_witness :
  eval (get_recent_messages (-2)) three = [entry "user" "c"].
Proof.
  destruct (recent_messages_negative_count 2 three) as [H _]; [lia|].
  exact H.
Defined.

(** X19.  Reading after writing: right after [add_message role content],
    [get_recent_messages(1)] returns exactly the new entry, and
    [get_recent_messages(count)] with [count >= 10] returns the whole
    history. *)
Theorem recent_after_add (self : t) (role content : string) (count : Z) :
  10 <= count ->
  let self' := exec (add_message role content) self in
  eval (get_recent_messages 1) self' = [entry role content]
  /\ eval (get_recent_messages count) self' = conversation_history self'.
Proof.
  intros Hc. cbn zeta.
  destruct (add_message_length_last self role content) as (Hlen & Hlast).
  cbn zeta in Hlen, Hlast.
  set (self' := exec (add_message role content) self) in *.
  split.
  - destruct (get_recent_messages_positive 1 self') as [-> _]; [lia|].
    unfold Py.lastn. change (Z.to_nat 1) with 1%nat.
    apply last_Some in Hlast as [l' Hl']. rewrite Hl'.
    rewrite length_app. simpl.
    rewrite drop_app_le by lia.
    replace (length l' + 1 - 1)%nat with (length l') by lia.
    by rewrite drop_all.
  - destruct (get_recent_messages_positive count self') as [-> _]; [lia|].
    apply Py_facts.lastn_all. lia.
Qed.

Lemma recent_after_add_witness :
  eval (get_recent_messages 1) (exec (add_message "user" "d") three)
  = [entry "user" "d"].
Proof.
  apply (proj1 (recent_after_add three "user" "d" 10 ltac:(lia))).
Defined.

End ConversationContext_history_facts.

(** ** ExpenseData: the bodies of the three validators *)

Module ExpenseData_facts.
Import Py ExpenseData Strip_facts.

(** The comparison made on the representation is the comparison of the
    numbers. *)
Lemma finite_le_zero (sign : bool) (coeff : N) (exp : Z) :
  (coeff =? 0)%N || sign = true <-> (finite_value sign coeff exp <= 0)%Q.
Proof.
  unfold finite_value.
  assert (Hp : (0 < Qpower (10 # 1) exp)%Q) by (by apply Qpower_0_lt).
  assert (Hc : (0 <= inject_Z (Z.of_N coeff))%Q)
    by (rewrite <- (Zle_Qle 0); lia).
  set (p := Qpower (10 # 1) exp) in *.
  set (q := inject_Z (Z.of_N coeff)) in *.
  rewrite orb_true_iff, N.eqb_eq. split.
  - intros [Hz | ->].
    + assert (Hq : (q == 0)%Q) by (subst q; by rewrite Hz).
      rewrite Hq. destruct sign; lra.
    + nra.
  - intros Hv. destruct sign; [by right|left].
    destruct (N.eq_dec coeff 0%N) as [|Hne]; [done|exfalso].
    assert (0 < q)%Q by (subst q; rewrite <- (Zlt_Qlt 0); lia).
    assert (0 < q * p)%Q by (by apply Qmult_lt_0_compat).
    nra.
Qed.

Lemma Decimal_le_zero_nonpositive (d : Decimal) :
  Decimal_le_zero d = Some true <-> nonpositive d.
Proof.
  destruct d as [sign coeff exp|negative|]; cbn [Decimal_le_zero nonpositive].
  - rewrite <- finite_le_zero. split; [by intros [= ->]|by intros ->].
  - split; [by intros [= ->]|by intros ->].
  - done.
Qed.

Lemma Decimal_le_zero_positive (d : Decimal) :
  Decimal_le_zero d = Some false <-> positive d.
Proof.
  destruct d as [sign coeff exp|negative|]; cbn [Decimal_le_zero positive].
  - pose proof (finite_le_zero sign coeff exp) as H.
    destruct ((coeff =? 0)%N || sign).
    + split; [done|]. intros Hpos. exfalso.
      assert (finite_value sign coeff exp <= 0)%Q by (by apply H). lra.
    + split; [intros _|done].
      destruct (Qlt_le_dec 0 (finite_value sign coeff exp)) as [|Hle]; [done|].
      apply H in Hle. discriminate.
  - split; [by intros [= ->]|by intros ->].
  - done.
Qed.

(** X3.  The body of [validate_amount]: an absent amount and an amount
    above 0, the positive infinity included, are returned as they are; an
    amount at most 0 (zero of either sign, a negative number, the negative
    infinity) raises the [ValueError] "Amount must be greater than 0"; on a
    NaN the comparison itself raises, and what comes out is the
    [InvalidOperation] of [decimal], not the [ValueError].  The three cases
    exclude one another and leave nothing out. *)
Theorem validate_amount_spec (v : option Decimal) :
  (validate_amount v = Ok v <->
   v = None \/ exists d, v = Some d /\ positive d)
  /\ (validate_amount v = Failed amount_error <->
      exists d, v = Some d /\ nonpositive d)
  /\ (validate_amount v = Failed (Err "amount" InvalidOperation) <->
      v = Some DNaN)
  /\ (forall v', validate_amount v = Ok v' -> v' = v)
  /\ (v = None \/ (exists d, v = Some d /\ positive d)
      \/ (exists d, v = Some d /\ nonpositive d) \/ v = Some DNaN).
Proof.
  destruct v as [d|]; cbn [validate_amount].
  - pose proof (Decimal_le_zero_nonpositive d) as Hn.
    pose proof (Decimal_le_zero_positive d) as Hp.
    destruct (Decimal_le_zero d) as [[|]|] eqn:E.
    + repeat split; try done.
      * intros [|(d' & [= <-] & Hd)]; [done|]. by apply Hp in Hd.
      * intros _. exists d. split; [done|]. by apply Hn.
      * intros [= ->]. discriminate.
      * right. right. left. exists d. split; [done|]. by apply Hn.
    + repeat split; try done.
      * intros _. right. exists d. split; [done|]. by apply Hp.
      * intros (d' & [= <-] & Hd). by apply Hn in Hd.
      * intros [= ->]. discriminate.
      * by intros v' [= <-].
      * right. left. exists d. split; [done|]. by apply Hp.
    + assert (d = DNaN) as -> by (by destruct d).
      repeat split; try done.
      * intros [|(d' & [= <-] & Hd)]; done.
      * intros (d' & [= <-] & Hd). done.
      * by right; right; right.
  - repeat split; try done.
    + intros _. by left.
    + intros (d & Hd & _). done.
    + by intros v' [= <-].
    + by left.
Qed.

Lemma validate_amount_spec_witness :
  validate_amount (Some (DInfinity false)) = Ok (Some (DInfinity false))
  /\ validate_amount (Some (DFinite true 0 0)) = Failed amount_error
  /\ validate_amount (Some DNaN) = Failed (Err "amount" InvalidOperation).
Proof.
  split; [|split].
  - apply (proj2 (proj1 (validate_amount_spec (Some (DInfinity false))))).
    right. exists (DInfinity false). split; reflexivity.
  - apply (proj2 (proj1 (proj2 (validate_amount_spec
                                  (Some (DFinite true 0 0)))))).
    exists (DFinite true 0 0). split; [reflexivity|]. by vm_compute.
  - apply (proj2 (proj1 (proj2 (proj2 (validate_amount_spec (Some DNaN)))))).
    reflexivity.
Defined.

(** X5.  The body of [validate_description]: the result is absent exactly
    when the description is absent or all white space; otherwise it is the
    description with the white space at its two ends removed and nothing
    else changed, so it is non-empty and neither begins nor ends with white
    space.  Applying the body to its own result changes nothing. *)
Theorem validate_description_spec (v : option (list N)) :
  (validate_description v = None <->
   v = None \/ exists s, v = Some s /\ all_space s = true)
  /\ (forall d, validate_description v = Some d ->
        d <> [] /\ starts_with_space d = false /\ ends_with_space d = false
        /\ exists s a b, v = Some s /\ s = a ++ d ++ b
                         /\ all_space a = true /\ all_space b = true)
  /\ validate_description (validate_description v) = validate_description v.
Proof.
  destruct v as [s|]; cbn [validate_description].
  - destruct (strip_spec s) as (Hsplit & Hs & He & Hidem & Hnil).
    rewrite strip_truthy, negb_involutive.
    destruct (all_space s) eqn:E; cbn [negb].
    + split; [|split; [done|done]].
      split; [|done]. intros _. right. by exists s.
    + assert (Hne : strip s <> []).
      { intros H. apply Hnil in H. discriminate. }
      split; [|split].
      * split; [done|]. intros [|(s' & [= <-] & Hs')]; [done|congruence].
      * intros d [= <-]. split; [done|]. split; [done|]. split; [done|].
        destruct Hsplit as (a & b & Hab & Ha & Hb). by exists s, a, b.
      * cbn [validate_description]. rewrite strip_truthy, negb_involutive.
        rewrite Hidem.
        destruct (all_space (strip s)) eqn:E'; [|done].
        destruct Hne. rewrite <- Hidem.
        by apply (proj2 (proj2 (proj2 (proj2 (strip_spec (strip s)))))).
  - split; [|split; [done|done]]. split; [|done]. intros _. by left.
Qed.

Lemma validate_description_spec_witness :
  validate_description (Some (text "   ")) = None.
Proof.
  apply (proj2 (proj1 (validate_description_spec (Some (text "   "))))).
  right. exists (text "   "). split; reflexivity.
Defined.

(** X6.  The body of [validate_expense_date]: an absent date stays absent;
    a date is returned with the wall-clock reading it had, with UTC as its
    zone when it had none and with its own zone otherwise, in which case
    the value is unchanged.  The result always carries a zone, and applying
    the body again changes nothing. *)
Theorem validate_expense_date_spec (v : option datetime) :
  (validate_expense_date v = None <-> v = None)
  /\ (forall d, v = Some d ->
        exists d', validate_expense_date v = Some d'
                   /\ wall_clock d' = wall_clock d
                   /\ tzinfo d' = Some (default utc (tzinfo d))
                   /\ (tzinfo d <> None -> d' = d))
  /\ validate_expense_date (validate_expense_date v) = validate_expense_date v.
Proof.
  destruct v as [[w [z|]]|]; cbn [validate_expense_date tzinfo wall_clock].
  - repeat split; try done. intros d [= <-]. by eexists.
  - repeat split; try done. intros d [= <-]. by eexists.
  - repeat split; done.
Qed.

Lemma validate_expense_date_spec_witness :
  exists d',
    validate_expense_date (Some (DateTime 1704067200000000 None)) = Some d'
    /\ wall_clock d' = 1704067200000000
    /\ tzinfo d' = Some utc
    /\ (@None Z <> None -> d' = DateTime 1704067200000000 None).
Proof.
  exact (proj1 (proj2 (validate_expense_date_spec
                         (Some (DateTime 1704067200000000 None))))
           (DateTime 1704067200000000 None) eq_refl).
Defined.

End ExpenseData_facts.

(** ** AssistantResponse: the bodies of the three validators *)

Module AssistantResponse_facts.
Import Py AssistantResponse Strip_facts.

(** X7.  The body of [validate_message]: a message that is empty or all
    white space raises the [ValueError] "Message cannot be empty", and only
    such a message does; any other message comes back with the white space
    at its two ends removed and nothing else changed, and the body accepts
    its own result unchanged. *)
Theorem validate_message_spec (v : list N) :
  (validate_message v
   = Failed (Err "message" (ValueError "Message cannot be empty"))
   <-> all_space v = true)
  /\ (forall m, validate_message v = Ok m ->
        m = strip v /\ m <> []
        /\ starts_with_space m = false /\ ends_with_space m = false
        /\ (exists a b, v = a ++ m ++ b
                        /\ all_space a = true /\ all_space b = true)
        /\ validate_message m = Ok m)
  /\ (all_space v = false -> succeeds (validate_message v) = true).
Proof.
  pose proof (strip_or_refuse
                (Err "message" (ValueError "Message cannot be empty")) v)
    as [Hfail Hok].
  cbn zeta in Hfail, Hok. fold (validate_message v) in Hfail, Hok.
  split; [exact Hfail|split].
  - intros m Hm. destruct (Hok m Hm) as (H1 & H2 & H3 & H4 & H5 & H6 & H7).
    repeat split; try done.
    unfold validate_message. cbn zeta. by rewrite strip_truthy, H7, H6.
  - intros Hv. destruct (validate_message v) as [m|e] eqn:E; [done|].
    unfold validate_message in E. cbn zeta in E.
    rewrite strip_truthy, Hv in E. discriminate.
Qed.

Lemma validate_message_spec_witness :
  validate_message (text "  ")
  = Failed (Err "message" (ValueError "Message cannot be empty")).
Proof.
  apply (proj2 (proj1 (validate_message_spec (text "  ")))). reflexivity.
Defined.

Lemma validate_clarification_questions_cons (q : list N) (v : list (list N)) :
  validate_clarification_questions (q :: v)
  = if all_space q then validate_clarification_questions v
    else strip q :: validate_clarification_questions v.
Proof.
  unfold validate_clarification_questions. cbn [List.filter].
  rewrite strip_truthy. by destruct (all_space q).
Qed.

(** X8.  The body of [validate_clarification_questions] goes through the
    questions in their order: a question that is empty or all white space
    is left out, any other question is kept, once for each time it occurs
    and at its place among the kept ones, with the white space at its two
    ends removed.  So the result of a concatenation is the concatenation of
    the results, every question of the result is non-empty and has no
    white space at either end, the result is empty exactly when every
    question was blank, and cleaning a cleaned list changes nothing. *)
Theorem validate_clarification_questions_spec (v w : list (list N)) (q : list N) :
  validate_clarification_questions [] = []
  /\ validate_clarification_questions (q :: v)
     = (if all_space q then validate_clarification_questions v
        else strip q :: validate_clarification_questions v)
  /\ validate_clarification_questions (v ++ w)
     = validate_clarification_questions v ++ validate_clarification_questions w
  /\ Forall (fun q => q <> [] /\ starts_with_space q = false
                      /\ ends_with_space q = false)
       (validate_clarification_questions v)
  /\ (validate_clarification_questions v = []
      <-> Forall (fun q => all_space q = true) v)
  /\ validate_clarification_questions (validate_clarification_questions v)
     = validate_clarification_questions v.
Proof.
  split; [done|]. split; [apply validate_clarification_questions_cons|].
  split; [|split; [|split]].
  - unfold validate_clarification_questions.
    by rewrite List.filter_app, List.map_app.
  - induction v as [|q' v IH]; [constructor|].
    rewrite validate_clarification_questions_cons.
    destruct (all_space q') eqn:E; [exact IH|]. constructor; [|exact IH].
    destruct (strip_spec q') as (_ & Hs & He & _ & Hnil).
    repeat split; try done. intros H. apply Hnil in H. congruence.
  - induction v as [|q' v IH]; [by split|].
    rewrite validate_clarification_questions_cons.
    destruct (all_space q') eqn:E.
    + rewrite IH. split; [by constructor|]. by inversion 1.
    + split; [done|]. inversion 1; congruence.
  - induction v as [|q' v IH]; [done|].
    rewrite validate_clarification_questions_cons.
    destruct (all_space q') eqn:E; [exact IH|].
    rewrite validate_clarification_questions_cons, IH.
    destruct (strip_spec q') as (_ & _ & _ & Hidem & Hnil).
    rewrite Hidem.
    destruct (all_space (strip q')) eqn:E'; [|done].
    destruct (strip_spec (strip q')) as (_ & _ & _ & _ & Hnil').
    apply Hnil' in E'. rewrite Hidem in E'. apply Hnil in E'. congruence.
Qed.

Lemma validate_clarification_questions_spec_witness :
  validate_clarification_questions
    (List.map text ["b "; "  "; " a"; "b "])
  = List.map text ["b"; "a"; "b"].
Proof.
  exact (eq_trans
           (proj1 (proj2 (validate_clarification_questions_spec
                            (List.map text ["  "; " a"; "b "]) []
                            (text "b "))))
           eq_refl).
Defined.

Lemma flag_of_insert (values : gmap string pyvalue) (v : pyvalue) :
  flag_of (<["requires_clarification" := v]> values) = v.
Proof. unfold flag_of. by rewrite lookup_insert_eq. Qed.

Lemma questions_of_insert (values : gmap string pyvalue) (v : pyvalue) :
  questions_of (<["requires_clarification" := v]> values) = questions_of values.
Proof. unfold questions_of. by rewrite lookup_insert_ne. Qed.

(** X9.  The body of [validate_clarification_consistency] works on the raw
    mapping and tests truth values, whatever the kinds of the two values.
    It raises exactly when the flag is true as a truth value and the
    questions are not (both default to false when left out).  When it
    returns, the mapping returned differs from the one given at most under
    the key "requires_clarification", which is set to [True] only when the
    flag was false and the questions true; the questions are untouched;
    the flag and the questions of the result have the same truth value;
    and the body accepts its result unchanged. *)
Theorem consistency_on_raw_values (values : gmap string pyvalue) :
  (fails (validate_clarification_consistency values) <->
   truthy (flag_of values) = true /\ truthy (questions_of values) = false)
  /\ (forall values', validate_clarification_consistency values = Ok values' ->
        values'
        = (if negb (truthy (flag_of values)) && truthy (questions_of values)
           then <["requires_clarification" := PScalar (PBool true)]> values
           else values)
        /\ (forall k, k <> "requires_clarification" ->
                      values' !! k = values !! k)
        /\ questions_of values' = questions_of values
        /\ truthy (flag_of values') = truthy (questions_of values')
        /\ validate_clarification_consistency values' = Ok values').
Proof.
  unfold validate_clarification_consistency.
  fold (flag_of values). fold (questions_of values).
  destruct (truthy (flag_of values)) eqn:Ef,
           (truthy (questions_of values)) eqn:Eq; cbn [andb negb].
  - split; [split; [by intros [e He]|by intros [_ ?]]|].
    intros values' [= <-]. repeat split; try done; try congruence.
    fold (flag_of values). fold (questions_of values). by rewrite Ef, Eq.
  - split; [split; [done|intros _; apply fails_Failed]|done].
  - split; [split; [by intros [e He]|by intros [? _]]|].
    intros values' [= <-].
    repeat split.
    + intros k Hk. by rewrite lookup_insert_ne.
    + apply questions_of_insert.
    + by rewrite flag_of_insert, questions_of_insert, Eq.
    + fold (flag_of (<["requires_clarification" := PScalar (PBool true)]> values)).
      fold (questions_of
              (<["requires_clarification" := PScalar (PBool true)]> values)).
      by rewrite flag_of_insert, questions_of_insert, Eq.
  - split; [split; [by intros [e He]|by intros [? _]]|].
    intros values' [= <-]. repeat split; try done; try congruence.
    fold (flag_of values). fold (questions_of values). by rewrite Ef, Eq.
Qed.

Lemma consistency_on_raw_values_witness :
  fails (validate_clarification_consistency
           (<["requires_clarification" := PScalar (PStr "false")]> ∅)).
Proof.
  apply (proj2 (proj1 (consistency_on_raw_values
                         (<["requires_clarification" := PScalar (PStr "false")]>
                            ∅)))).
  split; reflexivity.
Defined.

End AssistantResponse_facts.

(** ** ErrorResponse: the body of the validator *)

Module ErrorResponse_facts.
Import Py ErrorResponse Strip_facts.

(** X21.  The body of [validate_error_message]: an error message that is
    empty or all white space raises the [ValueError] "Error message cannot
    be empty", and only such a message does; any other message comes back
    with the white space at its two ends removed and nothing else changed,
    and the body accepts its own result unchanged. *)
Theorem validate_error_message_spec (v : list N) :
  (validate_error_message v
   = Failed (Err "error_message" (ValueError "Error message cannot be empty"))
   <-> all_space v = true)
  /\ (forall m, validate_error_message v = Ok m ->
        m = strip v /\ m <> []
        /\ starts_with_space m = false /\ ends_with_space m = false
        /\ (exists a b, v = a ++ m ++ b
                        /\ all_space a = true /\ all_space b = true)
        /\ validate_error_message m = Ok m)
  /\ (all_space v = false -> succeeds (validate_error_message v) = true).
Proof.
  pose proof (strip_or_refuse
                (Err "error_message"
                   (ValueError "Error message cannot be empty")) v)
    as [Hfail Hok].
  cbn zeta in Hfail, Hok. fold (validate_error_message v) in Hfail, Hok.
  split; [exact Hfail|split].
  - intros m Hm. destruct (Hok m Hm) as (H1 & H2 & H3 & H4 & H5 & H6 & H7).
    repeat split; try done.
    unfold validate_error_message. cbn zeta. by rewrite strip_truthy, H7, H6.
  - intros Hv. destruct (validate_error_message v) as [m|e] eqn:E; [done|].
    unfold validate_error_message in E. cbn zeta in E.
    rewrite strip_truthy, Hv in E. discriminate.
Qed.

Lemma validate_error_message_spec_witness :
  validate_error_message (text " ")
  = Failed (Err "error_message" (ValueError "Error message cannot be empty")).
Proof.
  apply (proj2 (proj1 (validate_error_message_spec (text " ")))). reflexivity.
Defined.

End ErrorResponse_facts.
